(** * Katello CLI: the [distribution] command (list / info actions)

    A shallow embedding of [katello/client/core/distribution.py].  The two
    actions are glue between parsed command-line options, two remote
    collaborators (repo resolution and the distribution API) and the column
    printer.  Every call an action makes on a collaborator or on the printer
    is recorded, in program order, in a trace; an exception raised by a
    collaborator aborts the rest of the method body. *)

From Stdlib Require Import ZArith Ascii String.
From stdpp Require Import base strings list gmap pretty.

Local Open Scope string_scope.
Local Open Scope Z_scope.
Local Open Scope list_scope.

(** ** Python values that flow through the module *)

(** Option values are strings or [None]; the fields of the JSON records the
    server returns are strings, numbers or lists of strings. *)
Inductive value :=
  | VNone
  | VStr (s : string)
  | VNum (z : Z)
  | VList (l : list string).

(** A record of the API: a mapping from field name to value. *)
Abbreviation record := (gmap string value).

(** The parsed options of one invocation: destination key to string. *)
Abbreviation options := (gmap string string).

#[global] Instance value_eq_dec : EqDecision value.
Proof. solve_decision. Defined.

(** Python truthiness, as tested by [if not repoId]. *)
Definition truthy (v : value) : bool :=
  match v with
  | VNone => false
  | VStr s => negb (String.eqb s EmptyString)
  | VNum z => negb (z =? 0)
  | VList l => match l with [] => false | _ => true end
  end.

Inductive exn :=
  | KeyError (key : string)
  | TypeError (msg : string)
  | ValueError (msg : string)
  | RemoteError (msg : string).

(** [os.EX_OK] *)
Definition EX_OK : Z := 0.

(** ** The printer's columns, as the keyword arguments of [add_column] *)

Inductive strategy := VerboseStrategy.

Record column := Column {
  col_key : string;
  col_multiline : bool;
  col_show_with : option strategy
}.

#[global] Instance strategy_eq_dec : EqDecision strategy.
Proof. solve_decision. Defined.
#[global] Instance column_eq_dec : EqDecision column.
Proof. solve_decision. Defined.

(** ** Calls on the collaborators and on the printer *)

Inductive event :=
  | ECheckOptions (missing : list string)
  | EGetRepo (orgName prodName repoName envName : value)
  | EDistributionsByRepo (repoId : value)
  | EDistribution (repoId dist_id : value)
  | EAddColumn (c : column)
  | ESetHeader (text : string)
  | EPrintItems (items : list record)
  | EPrintItem (item : record).

(** Calls that go over the network. *)
Definition is_network (e : event) : bool :=
  match e with
  | EGetRepo _ _ _ _ | EDistributionsByRepo _ | EDistribution _ _ => true
  | _ => false
  end.

Definition is_get_repo (e : event) : bool :=
  match e with EGetRepo _ _ _ _ => true | _ => false end.

Definition is_api (e : event) : bool :=
  match e with EDistributionsByRepo _ | EDistribution _ _ => true | _ => false end.

Definition is_add_column (e : event) : bool :=
  match e with EAddColumn _ => true | _ => false end.

Definition is_print (e : event) : bool :=
  match e with EPrintItems _ | EPrintItem _ => true | _ => false end.

(** ** The effect of a method body: a result or an exception, and the calls
    made up to that point *)

Definition M (A : Type) : Type := (exn + A) * list event.

Definition raise {A} (e : exn) : M A := (inl e, []).

#[global] Instance M_ret : MRet M := fun A a => (inr a, []).

#[global] Instance M_bind : MBind M := fun A B k m =>
  match m with
  | (inl e, t) => (inl e, t)
  | (inr a, t) => let '(r, t') := k a in (r, t ++ t')
  end.

Definition emit (e : event) : M unit := (inr tt, [e]).

Definition lift {A} (r : exn + A) : M A := (r, []).

(** The calls [t], followed by what [m] does. *)
Definition after {A} (t : list event) (m : M A) : M A := (fst m, t ++ snd m).

Definition result {A} (m : M A) : exn + A := fst m.
Definition trace {A} (m : M A) : list event := snd m.

(** ** [str] and the [%] operator on the one conversion the module uses *)

Section Formatting.

(** Python's rendering of a list; the module never formats one itself. *)
Variable repr_list : list string -> string.

Definition py_str (v : value) : string :=
  match v with
  | VNone => "None"
  | VStr s => s
  | VNum z => pretty z
  | VList l => repr_list l
  end.

(** [fmt % arg] for a single, non-tuple argument: [%s] consumes the
    argument, [%%] is a literal percent sign. *)
Fixpoint format (fmt : string) (arg : option string) : exn + string :=
  match fmt with
  | EmptyString =>
      match arg with
      | None => inr EmptyString
      | Some _ => inl (TypeError "not all arguments converted during string formatting")
      end
  | String c rest =>
      if Ascii.eqb c "%"%char then
        match rest with
        | EmptyString => inl (ValueError "incomplete format")
        | String d rest' =>
            if Ascii.eqb d "s"%char then
              match arg with
              | Some a =>
                  match format rest' None with
                  | inr s => inr (a +:+ s)
                  | inl e => inl e
                  end
              | None => inl (TypeError "not enough arguments for format string")
              end
            else if Ascii.eqb d "%"%char then
              match format rest' arg with
              | inr s => inr (String "%"%char s)
              | inl e => inl e
              end
            else inl (ValueError "unsupported format character")
        end
      else
        match format rest arg with
        | inr s => inr (String c s)
        | inl e => inl e
        end
  end.

Definition py_mod (fmt : string) (v : value) : exn + string :=
  format fmt (Some (py_str v)).

End Formatting.

(** Localisation is left to the message catalogue.
    Modelled from the spec: [_] (gettext) is an external collaborator that is
    out of scope; messages are taken untranslated. *)
Definition gettext (msgid : string) : string := msgid.

(** ** Option declarations and parsing *)

(** One declared flag.  Help texts do not take part in parsing and are left
    out. *)
Record OptionDecl := {
  opt_flag : string;
  opt_dest : string;
  opt_default : option string
}.

Abbreviation parser := (list OptionDecl).

Definition add_option (flag dest : string) (default : option string)
    (p : parser) : parser :=
  p ++ [{| opt_flag := flag; opt_dest := dest; opt_default := default |}].

(** Modelled from the spec: [opt_parser_add_org], [opt_parser_add_product]
    and [opt_parser_add_environment] live in [katello.client.cli.base],
    which is not part of the excerpt; per the CLI surface of [list] they
    declare [--org], [--product] and [--environment], the latter with the
    default it is given. *)
Definition opt_parser_add_org (p : parser) : parser :=
  add_option "--org" "org" None p.

Definition opt_parser_add_product (p : parser) : parser :=
  add_option "--product" "product" None p.

Definition opt_parser_add_environment (default : option string) (p : parser) : parser :=
  add_option "--environment" "environment" default p.

(** The values every destination starts from: the declared defaults, a later
    declaration of a destination overriding an earlier one. *)
Definition defaults (p : parser) : options :=
  fold_left (fun acc d =>
               match opt_default d with
               | Some v => <[opt_dest d := v]> acc
               | None => acc
               end) p ∅.

Definition find_flag (p : parser) (flag : string) : option OptionDecl :=
  List.find (fun d => String.eqb (opt_flag d) flag) p.

(** Modelled from the spec: [parse(argv)] returns the parsed options or
    fails on an unrecognised flag.  The command line is taken already split
    into (flag, value) pairs; a later occurrence of a flag overrides an
    earlier one. *)
Fixpoint parse_from (p : parser) (argv : list (string * string)) (acc : options)
    : string + options :=
  match argv with
  | [] => inr acc
  | (flag, v) :: rest =>
      match find_flag p flag with
      | Some d => parse_from p rest (<[opt_dest d := v]> acc)
      | None => inl flag
      end
  end.

Definition parse_args (p : parser) (argv : list (string * string)) : string + options :=
  parse_from p argv (defaults p).

(** Modelled from the spec: [BaseAction.get_option] reads the parsed option
    under its destination key; an option that was not given and has no
    default reads as [None]. *)
Definition get_option (opts : options) (dest : string) : value :=
  match opts !! dest with
  | Some s => VStr s
  | None => VNone
  end.

(** ** The option validator *)

Record OptionValidator := {
  v_opts : options;
  v_missing : list string
}.

Definition new_validator (opts : options) : OptionValidator :=
  {| v_opts := opts; v_missing := [] |}.

(** A present, non-empty value. *)
Definition has_value (opts : options) (dest : string) : bool :=
  match opts !! dest with
  | Some s => negb (String.eqb s EmptyString)
  | None => false
  end.

(** Modelled from the spec: the validator of [katello.client.core.base] is
    not part of the excerpt.  The spec has one notion of presence for it, a
    present (non-empty) value (4.2), and the rule of [list] is worded with
    it (repo_id, or else repo, org and product); [exists] tests that
    presence. *)
Definition exists_ (v : OptionValidator) (dest : string) : bool :=
  has_value (v_opts v) dest.

(** Modelled from the spec: [require(tuple_of_keys)] fails with a validation
    error unless every key in the tuple has a present (non-empty) value; the
    error names the missing fields. *)
Definition require (dests : list string) (v : OptionValidator) : OptionValidator :=
  {| v_opts := v_opts v;
     v_missing := v_missing v ++
                  List.filter (fun d => negb (has_value (v_opts v) d)) dests |}.

Definition passes (v : OptionValidator) : bool :=
  match v_missing v with [] => true | _ => false end.

(** ** The actions *)

Inductive outcome :=
  | Exit (status : Z)
  | ArgumentError (flag : string)
  | ValidationError (missing : list string)
  | Propagated (e : exn).

(** What [BaseAction] asks of an action. *)
Record Action := {
  setup_parser : parser -> parser;
  check_options : OptionValidator -> OptionValidator;
  run : options -> M Z
}.

Section Actions.

(** The remote collaborators: [katello.client.api.utils.get_repo] and the
    two methods of [DistributionAPI] the actions call.  Each either
    returns or raises. *)
Variable get_repo : value -> value -> value -> value -> exn + record.
Variable distributions_by_repo : value -> exn + list record.
Variable distribution : value -> value -> exn + record.
Variable repr_list : list string -> string.

(** A call is recorded before its outcome is known. *)
Definition call_get_repo (orgName prodName repoName envName : value) : M record :=
  emit (EGetRepo orgName prodName repoName envName);;
  lift (get_repo orgName prodName repoName envName).

Definition call_distributions_by_repo (repoId : value) : M (list record) :=
  emit (EDistributionsByRepo repoId);;
  lift (distributions_by_repo repoId).

Definition call_distribution (repoId dist_id : value) : M record :=
  emit (EDistribution repoId dist_id);;
  lift (distribution repoId dist_id).

(** [d[key]] on a record. *)
Definition getitem (d : record) (key : string) : M value :=
  match d !! key with
  | Some v => mret v
  | None => raise (KeyError key)
  end.

(** [printer.add_column(key, multiline=False, show_with=None)] *)
Definition add_column (key : string) (multiline : bool)
    (show_with : option strategy) : M unit :=
  emit (EAddColumn (Column key multiline show_with)).

Definition set_header (text : string) : M unit := emit (ESetHeader text).
Definition print_items (items : list record) : M unit := emit (EPrintItems items).
Definition print_item (item : record) : M unit := emit (EPrintItem item).

(** *** [class List] *)

Definition List_setup_parser (p : parser) : parser :=
  let p := add_option "--repo_id" "repo_id" None p in
  let p := add_option "--repo" "repo" None p in
  let p := opt_parser_add_org p in
  let p := opt_parser_add_environment (Some (gettext "Library")) p in
  opt_parser_add_product p.

Definition List_check_options (validator : OptionValidator) : OptionValidator :=
  if negb (exists_ validator "repo_id")
  then require ["repo"; "org"; "product"] validator
  else validator.

Definition List_run (opts : options) : M Z :=
  let repoId := get_option opts "repo_id" in
  let repoName := get_option opts "repo" in
  let orgName := get_option opts "org" in
  let envName := get_option opts "environment" in
  let prodName := get_option opts "product" in
  add_column "id" false None;;
  add_column "description" false None;;
  add_column "files" true (Some VerboseStrategy);;
  repoId ← (if negb (truthy repoId)
            then repo ← call_get_repo orgName prodName repoName envName;
                 getitem repo "id"
            else mret repoId);
  header ← lift (py_mod repr_list (gettext "Distribution List For Repo %s") repoId);
  set_header header;;
  distributions ← call_distributions_by_repo repoId;
  print_items distributions;;
  mret EX_OK.

(** What [List.run] does once the repository ID is settled: header, API
    call, printing.  Used to state the shape of its trace. *)
Definition List_tail (repoId : value) : (exn + Z) * list event :=
  let header := ESetHeader ("Distribution List For Repo " +:+ py_str repr_list repoId) in
  match distributions_by_repo repoId with
  | inr ds => (inr EX_OK, [header; EDistributionsByRepo repoId; EPrintItems ds])
  | inl e => (inl e, [header; EDistributionsByRepo repoId])
  end.

Definition List_action : Action :=
  {| setup_parser := List_setup_parser;
     check_options := List_check_options;
     run := List_run |}.

(** *** [class Info] *)

Definition Info_setup_parser (p : parser) : parser :=
  let p := add_option "--repo_id" "repo_id" None p in
  add_option "--id" "id" None p.

Definition Info_check_options (validator : OptionValidator) : OptionValidator :=
  require ["repo_id"; "id"] validator.

Definition Info_run (opts : options) : M Z :=
  let repoId := get_option opts "repo_id" in
  let dist_id := get_option opts "id" in
  data ← call_distribution repoId dist_id;
  add_column "id" false None;;
  add_column "description" false None;;
  add_column "family" false None;;
  add_column "variant" false None;;
  add_column "version" false None;;
  add_column "files" true (Some VerboseStrategy);;
  set_header (gettext "Distribution Information");;
  print_item data;;
  mret EX_OK.

Definition Info_action : Action :=
  {| setup_parser := Info_setup_parser;
     check_options := Info_check_options;
     run := Info_run |}.

(** *** One invocation of an action

    Modelled from the spec: the driver ([BaseAction.main]) is not part of
    the excerpt.  Per the action state machine it declares the options,
    parses, validates, and only when validation passed calls [run]; a
    validation failure ends the invocation there, and an exception of
    [run] propagates to the dispatcher. *)
Definition main (a : Action) (argv : list (string * string)) : outcome * list event :=
  match parse_args (setup_parser a []) argv with
  | inl flag => (ArgumentError flag, [])
  | inr opts =>
      let validator := check_options a (new_validator opts) in
      if passes validator then
        match run a opts with
        | (inr status, t) => (Exit status, ECheckOptions [] :: t)
        | (inl e, t) => (Propagated e, ECheckOptions [] :: t)
        end
      else (ValidationError (v_missing validator),
            [ECheckOptions (v_missing validator)])
  end.

Definition success (o : outcome) : bool :=
  match o with
  | Exit status => status =? EX_OK
  | _ => false
  end.

End Actions.

(** ** Order of calls in a trace *)

(** [precedes P Q t]: in [t] no [P] call comes at or after a [Q] call, that
    is, every [P] call strictly precedes every [Q] call. *)
Fixpoint precedes (P Q : event -> bool) (t : list event) : bool :=
  match t with
  | [] => true
  | e :: t' => (if Q e then forallb (fun e' => negb (P e')) (e :: t') else true)
               && precedes P Q t'
  end.

Definition is_set_header (e : event) : bool :=
  match e with ESetHeader _ => true | _ => false end.

Definition is_configure (e : event) : bool := is_add_column e || is_set_header e.

(** The columns [List.run] and [Info.run] declare. *)
Definition List_columns : list column :=
  [ Column "id" false None;
    Column "description" false None;
    Column "files" true (Some VerboseStrategy) ].

Definition Info_columns : list column :=
  [ Column "id" false None;
    Column "description" false None;
    Column "family" false None;
    Column "variant" false None;
    Column "version" false None;
    Column "files" true (Some VerboseStrategy) ].

(** ** Sample collaborators, for concrete runs *)

Definition sample_repr_list (l : list string) : string :=
  ("[" +:+ String.concat ", " l +:+ "]")%string.

Definition sample_repo : record :=
  {[ "id" := VNum 7; "name" := VStr "fedora" ]}.

Definition sample_distro : record :=
  {[ "id" := VStr "ks1"; "description" := VStr "d1"; "files" := VList ["f1"] ]}.

Definition sample_get_repo (orgName prodName repoName envName : value) : exn + record :=
  inr sample_repo.

Definition sample_distributions_by_repo (repoId : value) : exn + list record :=
  inr [sample_distro].

Definition sample_distribution (repoId dist_id : value) : exn + record :=
  inr sample_distro.

Definition failing_get_repo (orgName prodName repoName envName : value) : exn + record :=
  inl (RemoteError "repo not found").

(** A resolution that answers with a record that has no ["id"]. *)
Definition idless_get_repo (orgName prodName repoName envName : value) : exn + record :=
  inr {[ "name" := VStr "fedora" ]}.

(** A repository with no distribution. *)
Definition empty_distributions_by_repo (repoId : value) : exn + list record :=
  inr [].

Definition failing_distributions_by_repo (repoId : value) : exn + list record :=
  inl (RemoteError "server error").

Definition failing_distribution (repoId dist_id : value) : exn + record :=
  inl (RemoteError "distribution not found").

(** * Properties *)

Lemma append_empty_r (s : string) : s +:+ EmptyString = s.
Proof.
  induction s as [|c s IH]; [reflexivity|].
  change (String c (s +:+ EmptyString) = String c s). now f_equal.
Qed.

Lemma precedes_spec (P Q : event -> bool) (t : list event) :
  precedes P Q t = true <->
  forall (i j : nat) e1 e2,
    t !! i = Some e1 -> t !! j = Some e2 ->
    P e1 = true -> Q e2 = true -> (i < j)%nat.
Proof.
  induction t as [|e t IH]; simpl.
  - split; [intros _ i j e1 e2 H; destruct i; discriminate H | reflexivity].
  - rewrite andb_true_iff, IH. clear IH. split.
    + intros [Hhd Htl] i j e1 e2 Hi Hj HP HQ.
      destruct j as [|j].
      * simpl in Hj. injection Hj as ->. rewrite HQ in Hhd.
        apply andb_true_iff in Hhd as [Hne Hall].
        destruct i as [|i].
        -- simpl in Hi. injection Hi as ->. rewrite HP in Hne. discriminate.
        -- simpl in Hi. rewrite forallb_forall in Hall.
           apply list_elem_of_lookup_2, list_elem_of_In, Hall in Hi.
           rewrite HP in Hi. discriminate.
      * destruct i as [|i]; [lia|].
        simpl in Hi, Hj. specialize (Htl i j e1 e2 Hi Hj HP HQ). lia.
    + intros H. split.
      * destruct (Q e) eqn:HQ; [|reflexivity].
        apply andb_true_iff. split.
        -- destruct (P e) eqn:HP; [|reflexivity].
           specialize (H 0%nat 0%nat e e eq_refl eq_refl HP HQ). lia.
        -- apply forallb_forall. intros x Hx.
           apply list_elem_of_In, list_elem_of_lookup_1 in Hx as [i Hi].
           destruct (P x) eqn:HP; [|reflexivity].
           specialize (H (S i) 0%nat x e Hi eq_refl HP HQ). lia.
      * intros i j e1 e2 Hi Hj HP HQ.
        specialize (H (S i) (S j) e1 e2 Hi Hj HP HQ). lia.
Qed.

(** ** Equations of the effect monad *)

Lemma bind_ret {A B} (a : A) (k : A -> M B) : mret a ≫= k = k a.
Proof. unfold mbind, M_bind, mret, M_ret. now destruct (k a). Qed.

Lemma bind_raise {A B} (e : exn) (k : A -> M B) : raise e ≫= k = raise e.
Proof. reflexivity. Qed.

Lemma bind_lift_inr {A B} (a : A) (k : A -> M B) : lift (inr a) ≫= k = k a.
Proof. unfold mbind, M_bind, lift. now destruct (k a). Qed.

Lemma bind_lift_inl {A B} (e : exn) (k : A -> M B) : lift (inl e) ≫= k = raise e.
Proof. reflexivity. Qed.

Lemma bind_emit {B} (e : event) (k : unit -> M B) : emit e ≫= k = after [e] (k tt).
Proof. unfold mbind, M_bind, emit, after. now destruct (k tt). Qed.

Lemma bind_assoc {A B C} (m : M A) (f : A -> M B) (g : B -> M C) :
  (m ≫= f) ≫= g = m ≫= (fun a => f a ≫= g).
Proof.
  unfold mbind, M_bind. destruct m as [[e|a] t]; [reflexivity|].
  destruct (f a) as [[e|b] t1]; [reflexivity|].
  destruct (g b) as [r t2]. now rewrite app_assoc.
Qed.

Lemma after_after {A} (t1 t2 : list event) (m : M A) :
  after t1 (after t2 m) = after (t1 ++ t2) m.
Proof. unfold after. simpl. now rewrite app_assoc. Qed.

Ltac splits :=
  repeat match goal with |- _ /\ _ => split end.

(** Case analysis on membership in a trace of known shape; closes the goal
    when it follows from the equation of the matching call. *)
Ltac elem_cases H :=
  simpl in H;
  repeat (apply elem_of_cons in H as [H|H]; [try discriminate H|]);
  try (apply elem_of_nil in H; destruct H);
  try (injection H; intros; subst; auto; fail).

Ltac step :=
  repeat first
    [ rewrite bind_assoc | rewrite bind_emit | rewrite bind_ret
    | rewrite bind_lift_inr | rewrite bind_lift_inl | rewrite bind_raise
    | rewrite after_after ];
  cbv beta.

Section RunShapes.

Variable get_repo : value -> value -> value -> value -> exn + record.
Variable distributions_by_repo : value -> exn + list record.
Variable distribution : value -> value -> exn + record.
Variable repr_list : list string -> string.

Local Abbreviation list_run := (List_run get_repo distributions_by_repo repr_list).
Local Abbreviation info_run := (Info_run distribution).
Local Abbreviation list_tail := (List_tail distributions_by_repo repr_list).

Lemma py_mod_list_header (v : value) :
  py_mod repr_list (gettext "Distribution List For Repo %s") v
  = inr ("Distribution List For Repo " +:+ py_str repr_list v).
Proof.
  unfold py_mod, gettext. simpl. now rewrite append_empty_r.
Qed.

Lemma List_run_direct (opts : options) :
  truthy (get_option opts "repo_id") = true ->
  list_run opts =
    after (map EAddColumn List_columns) (list_tail (get_option opts "repo_id")).
Proof.
  intros Ht. unfold List_run, List_tail. rewrite Ht. cbn [negb].
  unfold add_column, set_header, call_distributions_by_repo, print_items.
  step. rewrite py_mod_list_header. step.
  destruct (distributions_by_repo _); step; reflexivity.
Qed.

Lemma List_run_resolve (opts : options) :
  truthy (get_option opts "repo_id") = false ->
  let call := EGetRepo (get_option opts "org") (get_option opts "product")
                       (get_option opts "repo") (get_option opts "environment") in
  list_run opts =
    after (map EAddColumn List_columns ++ [call])
      match get_repo (get_option opts "org") (get_option opts "product")
                     (get_option opts "repo") (get_option opts "environment") with
      | inl e => raise e
      | inr repo =>
          match repo !! "id" with
          | None => raise (KeyError "id")
          | Some repoId => list_tail repoId
          end
      end.
Proof.
  intros Ht call. unfold List_run, List_tail. rewrite Ht. cbn [negb].
  unfold add_column, set_header, call_get_repo, call_distributions_by_repo,
    print_items, getitem.
  step. destruct (get_repo _ _ _ _) as [e|repo]; step; [reflexivity|].
  destruct (repo !! "id") as [repoId|]; step; [|reflexivity].
  rewrite py_mod_list_header. step.
  destruct (distributions_by_repo _); step; reflexivity.
Qed.

Lemma Info_run_shape (opts : options) :
  let call := EDistribution (get_option opts "repo_id") (get_option opts "id") in
  info_run opts =
    after [call]
      match distribution (get_option opts "repo_id") (get_option opts "id") with
      | inl e => raise e
      | inr data =>
          after (map EAddColumn Info_columns
                   ++ [ESetHeader "Distribution Information"; EPrintItem data])
                (mret EX_OK)
      end.
Proof.
  intros call. unfold Info_run.
  unfold add_column, set_header, call_distribution, print_item, gettext.
  step. destruct (distribution _ _); step; reflexivity.
Qed.

End RunShapes.

(** ** Parsing leaves untouched what the command line does not mention *)

Lemma parse_from_untouched (p : parser) (argv : list (string * string))
    (acc opts : options) (k : string) :
  parse_from p argv acc = inr opts ->
  (forall flag d, flag ∈ argv.*1 -> find_flag p flag = Some d -> opt_dest d <> k) ->
  opts !! k = acc !! k.
Proof.
  revert acc. induction argv as [|[flag v] argv IH]; intros acc Hp Hk; simpl in Hp.
  - now injection Hp as ->.
  - destruct (find_flag p flag) as [d|] eqn:Hd; [|discriminate].
    rewrite (IH _ Hp).
    + apply lookup_insert_ne. apply (Hk flag d); [|exact Hd].
      simpl. apply list_elem_of_here.
    + intros flag' d' Hin. apply Hk. simpl. now apply list_elem_of_further.
Qed.

Lemma List_parser_flag (flag : string) (d : OptionDecl) :
  find_flag (List_setup_parser []) flag = Some d ->
  flag = ("--" +:+ opt_dest d)%string.
Proof.
  unfold find_flag, List_setup_parser, opt_parser_add_org, opt_parser_add_product,
    opt_parser_add_environment, add_option.
  cbn [app List.find opt_flag opt_dest].
  repeat (match goal with
          | |- context [String.eqb ?a flag] =>
              destruct (String.eqb_spec a flag) as [<-|_]
          end; [intros [= <-]; reflexivity|]).
  discriminate.
Qed.

Lemma List_parse_not_given (argv : list (string * string)) (opts : options) (k : string) :
  parse_args (List_setup_parser []) argv = inr opts ->
  ("--" +:+ k)%string ∉ argv.*1 ->
  opts !! k = defaults (List_setup_parser []) !! k.
Proof.
  intros Hp Hk. apply (parse_from_untouched _ _ _ _ _ Hp).
  intros flag d Hin Hd Hdest. apply List_parser_flag in Hd.
  subst flag k. exact (Hk Hin).
Qed.

(** A requirement on a fresh validator passes exactly when every key has a
    value. *)
Lemma require_passes (dests : list string) (opts : options) :
  passes (require dests (new_validator opts)) = true <->
  forallb (has_value opts) dests = true.
Proof.
  unfold passes, require, new_validator. simpl.
  induction dests as [|d dests IH]; simpl; [tauto|].
  destruct (has_value opts d); simpl; [exact IH|].
  split; discriminate.
Qed.


Section Claims.

Variable get_repo : value -> value -> value -> value -> exn + record.
Variable distributions_by_repo : value -> exn + list record.
Variable distribution : value -> value -> exn + record.
Variable repr_list : list string -> string.

Local Abbreviation list_run := (List_run get_repo distributions_by_repo repr_list).
Local Abbreviation info_run := (Info_run distribution).
Local Abbreviation list_action := (List_action get_repo distributions_by_repo repr_list).
Local Abbreviation info_action := (Info_action distribution).

(** C1.  [List.check_options] accepts the parsed options exactly when
    [repo_id] exists or each of [repo], [org] and [product] has a value;
    when [repo_id] exists the validator is returned as it came, with no
    requirement placed on the other three. *)
Theorem List_check_options_accepts (opts : options) :
  (passes (List_check_options (new_validator opts)) = true <->
     exists_ (new_validator opts) "repo_id" = true \/
     (has_value opts "repo" = true /\ has_value opts "org" = true
      /\ has_value opts "product" = true))
  /\ (forall v : OptionValidator,
        exists_ v "repo_id" = true -> List_check_options v = v).
Proof.
  split.
  - unfold List_check_options.
    destruct (exists_ (new_validator opts) "repo_id") eqn:He; cbn [negb].
    + split; [now left | reflexivity].
    + rewrite require_passes. simpl. rewrite !andb_true_iff.
      split; [intros (? & ? & ? & _); right; auto|].
      intros [?|(? & ? & ?)]; [discriminate | auto].
  - intros v He. unfold List_check_options. now rewrite He.
Qed.

(** C2.  [Info.check_options] passes exactly when both [repo_id] and [id]
    have a value; an invocation whose parsed [id] has no value ends in a
    validation error naming [id], with no call on the distribution API. *)
Theorem Info_requires_repo_id_and_id :
  (forall opts : options,
      passes (Info_check_options (new_validator opts)) = true <->
      has_value opts "repo_id" = true /\ has_value opts "id" = true)
  /\ (forall argv (opts : options),
        parse_args (Info_setup_parser []) argv = inr opts ->
        has_value opts "id" = false ->
        exists missing,
          "id" ∈ missing
          /\ main info_action argv = (ValidationError missing, [ECheckOptions missing])
          /\ List.filter is_network (snd (main info_action argv)) = []).
Proof.
  split.
  - intros opts. unfold Info_check_options. rewrite require_passes. simpl.
    rewrite !andb_true_iff. tauto.
  - intros argv opts Hp Hid. unfold main. cbn [setup_parser check_options run Info_action].
    rewrite Hp. unfold Info_check_options, passes, require, new_validator. simpl.
    rewrite Hid. simpl.
    destruct (has_value opts "repo_id"); simpl; eexists; (split; [|split; reflexivity]).
    + apply list_elem_of_here.
    + apply list_elem_of_further, list_elem_of_here.
Qed.

(** C3.  In any invocation (of [List], of [Info], of any action run by the
    driver) every network call in the trace comes after a passed
    validation; when validation fails the trace holds no network call and
    the outcome is not a success. *)
Theorem validation_precedes_network (a : Action) (argv : list (string * string)) :
  (forall pre e post,
      snd (main a argv) = pre ++ e :: post ->
      is_network e = true ->
      ECheckOptions [] ∈ pre)
  /\ (forall opts : options,
        parse_args (setup_parser a []) argv = inr opts ->
        passes (check_options a (new_validator opts)) = false ->
        List.filter is_network (snd (main a argv)) = []
        /\ success (fst (main a argv)) = false).
Proof.
  split.
  - intros pre e post Ht He. unfold main in Ht.
    destruct (parse_args _ argv) as [flag|opts].
    { destruct pre; discriminate Ht. }
    destruct (passes _).
    + assert (Hhd : exists t, ECheckOptions [] :: t = pre ++ e :: post).
      { destruct (run a opts) as [[err|st] t]; eauto. }
      destruct Hhd as [t Hhd]. destruct pre as [|e0 pre].
      * simpl in Hhd. injection Hhd as <- _. discriminate He.
      * simpl in Hhd. injection Hhd as <- _. apply list_elem_of_here.
    + simpl in Ht. destruct pre as [|e0 [|e1 pre]]; simpl in Ht.
      * injection Ht as <- _. discriminate He.
      * discriminate Ht.
      * discriminate Ht.
  - intros opts Hp Hv. unfold main. rewrite Hp, Hv. simpl. split; reflexivity.
Qed.

(** C4 (amended).  When [repo_id] is supplied with a non-empty value,
    [List.run] makes no call on [get_repo] and uses the value as it is: it
    goes into the header and is the argument of [distributions_by_repo]. *)
Theorem List_run_uses_repo_id (opts : options) (s : string) :
  opts !! "repo_id" = Some s ->
  s <> EmptyString ->
  List.filter is_get_repo (trace (list_run opts)) = []
  /\ exists rest,
       trace (list_run opts)
       = map EAddColumn List_columns
           ++ ESetHeader ("Distribution List For Repo " +:+ s)
           :: EDistributionsByRepo (VStr s) :: rest
       /\ (rest = [] \/ exists ds, rest = [EPrintItems ds]).
Proof.
  intros Hs Hne.
  assert (Ht : truthy (get_option opts "repo_id") = true).
  { unfold get_option. rewrite Hs. simpl.
    destruct (String.eqb_spec s EmptyString); [contradiction | reflexivity]. }
  rewrite (List_run_direct _ _ _ _ Ht).
  unfold get_option. rewrite Hs. unfold List_tail, after, trace.
  destruct (distributions_by_repo (VStr s)) as [e|ds]; simpl.
  - split; [reflexivity|]. eexists. split; [reflexivity | now left].
  - split; [reflexivity|]. eexists. split; [reflexivity | right; eauto].
Qed.

(** C5 (amended).  [Info.run] calls the API first, then adds its columns,
    then sets the header, then prints; [List.run] adds its columns first,
    then resolves the repository (when [repo_id] is falsy), sets the header
    and calls the API, then prints.  Every run is an initial part of that
    sequence, the columns and the resolution of [List.run] and the API call
    of [Info.run] always take place, and a run that returns went through all
    of it and returns [EX_OK].  So in both the records reach the printer
    last, after every network call, the columns and the header. *)
Theorem run_order (opts : options) :
  (let columns := map EAddColumn List_columns in
   let resolve :=
     if truthy (get_option opts "repo_id") then []
     else [EGetRepo (get_option opts "org") (get_option opts "product")
             (get_option opts "repo") (get_option opts "environment")] in
   let rest repoId ds :=
     [ESetHeader ("Distribution List For Repo " +:+ py_str repr_list repoId);
      EDistributionsByRepo repoId; EPrintItems ds] in
   (columns ++ resolve) `prefix_of` trace (list_run opts)
   /\ (exists repoId ds,
         trace (list_run opts) `prefix_of` columns ++ resolve ++ rest repoId ds)
   /\ (forall status, result (list_run opts) = inr status ->
         status = EX_OK
         /\ exists repoId ds,
              trace (list_run opts) = columns ++ resolve ++ rest repoId ds)
   /\ precedes is_add_column is_network (trace (list_run opts)) = true
   /\ precedes is_add_column is_set_header (trace (list_run opts)) = true
   /\ precedes is_get_repo is_set_header (trace (list_run opts)) = true
   /\ precedes is_set_header is_api (trace (list_run opts)) = true
   /\ precedes is_network is_print (trace (list_run opts)) = true
   /\ precedes is_configure is_print (trace (list_run opts)) = true)
  /\ (let call := EDistribution (get_option opts "repo_id") (get_option opts "id") in
      let rest data :=
        map EAddColumn Info_columns
          ++ [ESetHeader "Distribution Information"; EPrintItem data] in
      [call] `prefix_of` trace (info_run opts)
      /\ (exists data, trace (info_run opts) `prefix_of` call :: rest data)
      /\ (forall status, result (info_run opts) = inr status ->
            status = EX_OK
            /\ exists data, trace (info_run opts) = call :: rest data)
      /\ precedes is_api is_configure (trace (info_run opts)) = true
      /\ precedes is_add_column is_set_header (trace (info_run opts)) = true
      /\ precedes is_network is_print (trace (info_run opts)) = true
      /\ precedes is_configure is_print (trace (info_run opts)) = true).
Proof.
  split.
  - intros columns resolve rest. subst columns resolve rest.
    destruct (truthy (get_option opts "repo_id")) eqn:Ht.
    + rewrite (List_run_direct _ _ _ _ Ht). unfold List_tail.
      destruct (distributions_by_repo _) as [e|ds];
        unfold after, trace, result; cbn [fst snd app map List_columns].
      * split; [eexists; reflexivity|].
        split; [exists (get_option opts "repo_id"), [], [EPrintItems []]; reflexivity|].
        split; [discriminate|]. splits; reflexivity.
      * split; [eexists; reflexivity|].
        split; [exists (get_option opts "repo_id"), ds, []; reflexivity|].
        split; [|splits; reflexivity].
        intros status [= <-]. split; [reflexivity|]. eauto.
    + rewrite (List_run_resolve _ _ _ _ Ht).
      destruct (get_repo _ _ _ _) as [e|repo].
      { unfold after, raise, trace, result; cbn [fst snd app map List_columns].
        split; [exists []; reflexivity|].
        split; [exists VNone, []; eexists; reflexivity|].
        split; [discriminate|]. splits; reflexivity. }
      destruct (repo !! "id") as [repoId|].
      2:{ unfold after, raise, trace, result; cbn [fst snd app map List_columns].
          split; [exists []; reflexivity|].
          split; [exists VNone, []; eexists; reflexivity|].
          split; [discriminate|]. splits; reflexivity. }
      unfold List_tail.
      destruct (distributions_by_repo _) as [e|ds];
        unfold after, trace, result; cbn [fst snd app map List_columns].
      * split; [eexists; reflexivity|].
        split; [exists repoId, [], [EPrintItems []]; reflexivity|].
        split; [discriminate|]. splits; reflexivity.
      * split; [eexists; reflexivity|].
        split; [exists repoId, ds, []; reflexivity|].
        split; [|splits; reflexivity].
        intros status [= <-]. split; [reflexivity|]. eauto.
  - intros call rest. subst call rest. rewrite Info_run_shape.
    destruct (distribution _ _) as [e|data];
      unfold after, raise, trace, result;
      cbn [fst snd app map Info_columns mret M_ret].
    + split; [exists []; reflexivity|].
      split; [exists ∅; eexists; reflexivity|].
      split; [discriminate|]. splits; reflexivity.
    + split; [eexists; reflexivity|].
      split; [exists data, []; reflexivity|].
      split; [|splits; reflexivity].
      intros status [= <-]. split; [reflexivity|]. eauto.
Qed.

(** C6.  On a command line with no [--repo_id] and no [--environment] flag,
    with [repo], [org] and [product] given, [List.run] calls [get_repo]
    once, with the environment argument ["Library"]; when that call returns
    a record, its ["id"] field is the repository ID of the header and of
    the [distributions_by_repo] call. *)
Theorem List_run_resolves_in_Library (argv : list (string * string))
    (opts : options) (r o p : string) :
  parse_args (List_setup_parser []) argv = inr opts ->
  "--repo_id" ∉ argv.*1 ->
  "--environment" ∉ argv.*1 ->
  opts !! "repo" = Some r ->
  opts !! "org" = Some o ->
  opts !! "product" = Some p ->
  let call := EGetRepo (VStr o) (VStr p) (VStr r) (VStr "Library") in
  List.filter is_get_repo (trace (list_run opts)) = [call]
  /\ forall repo repoId,
       get_repo (VStr o) (VStr p) (VStr r) (VStr "Library") = inr repo ->
       repo !! "id" = Some repoId ->
       exists rest,
         trace (list_run opts)
         = map EAddColumn List_columns
             ++ call
             :: ESetHeader ("Distribution List For Repo " +:+ py_str repr_list repoId)
             :: EDistributionsByRepo repoId :: rest.
Proof.
  intros Hp Hid Henv Hr Ho Hprod call.
  pose proof (List_parse_not_given argv opts "repo_id" Hp Hid) as Hid'.
  pose proof (List_parse_not_given argv opts "environment" Hp Henv) as Henv'.
  change (defaults (List_setup_parser []) !! "repo_id") with (@None string) in Hid'.
  change (defaults (List_setup_parser []) !! "environment")
    with (Some "Library"%string) in Henv'.
  assert (Ht : truthy (get_option opts "repo_id") = false).
  { unfold get_option. now rewrite Hid'. }
  rewrite (List_run_resolve _ _ _ _ Ht).
  unfold get_option. rewrite Hr, Ho, Hprod, Henv'. fold call.
  split.
  - destruct (get_repo _ _ _ _) as [e|repo]; [reflexivity|].
    destruct (repo !! "id") as [repoId|]; [|reflexivity].
    unfold List_tail. now destruct (distributions_by_repo _).
  - intros repo repoId -> ->. unfold List_tail.
    destruct (distributions_by_repo _); unfold after, trace; simpl; eauto.
Qed.

(** C7.  A [List.run] that returns has declared exactly the columns [id],
    [description] and [files] (multiline, shown with the verbose strategy),
    in that order, and then set the header "Distribution List For Repo
    <repoId>", where <repoId> is the repository ID it settled on (the
    [repo_id] option, or the ["id"] of the resolved repo) and called the API
    with.  An [Info.run] that returns has declared exactly [id],
    [description], [family], [variant], [version] and [files] (multiline,
    verbose) and then set the header "Distribution Information". *)
Theorem printer_configuration (opts : options) :
  (forall status, result (list_run opts) = inr status ->
     exists repoId,
       List.filter is_configure (trace (list_run opts))
       = map EAddColumn
           [ Column "id" false None;
             Column "description" false None;
             Column "files" true (Some VerboseStrategy) ]
         ++ [ESetHeader ("Distribution List For Repo " +:+ py_str repr_list repoId)]
       /\ List.filter is_api (trace (list_run opts)) = [EDistributionsByRepo repoId]
       /\ (if truthy (get_option opts "repo_id")
           then repoId = get_option opts "repo_id"
           else exists repo,
               get_repo (get_option opts "org") (get_option opts "product")
                        (get_option opts "repo") (get_option opts "environment")
               = inr repo
               /\ repo !! "id" = Some repoId))
  /\ (forall status, result (info_run opts) = inr status ->
        List.filter is_configure (trace (info_run opts))
        = map EAddColumn
            [ Column "id" false None;
              Column "description" false None;
              Column "family" false None;
              Column "variant" false None;
              Column "version" false None;
              Column "files" true (Some VerboseStrategy) ]
          ++ [ESetHeader "Distribution Information"]).
Proof.
  split; intros status.
  - destruct (truthy (get_option opts "repo_id")) eqn:Ht.
    + rewrite (List_run_direct _ _ _ _ Ht). unfold List_tail.
      destruct (distributions_by_repo _) as [e|ds];
        unfold after, trace, result; simpl; [discriminate|].
      intros _. eexists. splits; reflexivity.
    + rewrite (List_run_resolve _ _ _ _ Ht).
      destruct (get_repo _ _ _ _) as [e|repo]; [discriminate|].
      destruct (repo !! "id") as [repoId|] eqn:Hid; [|discriminate].
      unfold List_tail.
      destruct (distributions_by_repo _) as [e|ds];
        unfold after, trace, result; simpl; [discriminate|].
      intros _. exists repoId. splits; [reflexivity | reflexivity |].
      exists repo. now split.
  - rewrite Info_run_shape.
    destruct (distribution _ _) as [e|data]; [discriminate|].
    intros _. reflexivity.
Qed.

(** C8.  An error raised by a call [run] made ([get_repo],
    [distributions_by_repo], [distribution]) is the result of [run]: the
    failed call is the last call of the trace and was made once, and
    nothing was handed to the printer. *)
Theorem errors_propagate (opts : options) :
  (forall o p r en e,
      EGetRepo o p r en ∈ trace (list_run opts) ->
      get_repo o p r en = inl e ->
      result (list_run opts) = inl e
      /\ List.filter is_print (trace (list_run opts)) = []
      /\ List.filter is_network (trace (list_run opts)) = [EGetRepo o p r en])
  /\ (forall repoId e,
        EDistributionsByRepo repoId ∈ trace (list_run opts) ->
        distributions_by_repo repoId = inl e ->
        result (list_run opts) = inl e
        /\ List.filter is_print (trace (list_run opts)) = []
        /\ List.filter is_api (trace (list_run opts)) = [EDistributionsByRepo repoId])
  /\ (forall repoId dist_id e,
        EDistribution repoId dist_id ∈ trace (info_run opts) ->
        distribution repoId dist_id = inl e ->
        result (info_run opts) = inl e
        /\ List.filter is_print (trace (info_run opts)) = []
        /\ List.filter is_network (trace (info_run opts)) = [EDistribution repoId dist_id]).
Proof.
  splits.
  - intros o p r en e Hin He.
    destruct (truthy (get_option opts "repo_id")) eqn:Ht.
    + rewrite (List_run_direct _ _ _ _ Ht) in *. unfold List_tail in *.
      destruct (distributions_by_repo _); unfold after, trace in Hin; elem_cases Hin.
    + rewrite (List_run_resolve _ _ _ _ Ht) in *.
      assert (Hargs : o = get_option opts "org" /\ p = get_option opts "product"
                      /\ r = get_option opts "repo"
                      /\ en = get_option opts "environment").
      { destruct (get_repo (get_option opts "org") _ _ _) as [e'|repo].
        { unfold after, trace in Hin; elem_cases Hin. }
        destruct (repo !! "id"); [unfold List_tail in Hin|].
        - destruct (distributions_by_repo _); unfold after, trace in Hin;
            elem_cases Hin.
        - unfold after, trace in Hin; elem_cases Hin. }
      destruct Hargs as (-> & -> & -> & ->). rewrite He. now splits.
  - intros repoId e Hin He.
    destruct (truthy (get_option opts "repo_id")) eqn:Ht.
    + rewrite (List_run_direct _ _ _ _ Ht) in *. unfold List_tail in *.
      assert (repoId = get_option opts "repo_id") as ->.
      { destruct (distributions_by_repo _); unfold after, trace in Hin;
          elem_cases Hin. }
      rewrite He. now splits.
    + rewrite (List_run_resolve _ _ _ _ Ht) in *.
      destruct (get_repo _ _ _ _) as [e'|repo].
      { unfold after, trace in Hin; elem_cases Hin. }
      destruct (repo !! "id") as [repoId'|].
      2:{ unfold after, trace in Hin; elem_cases Hin. }
      unfold List_tail in *.
      assert (repoId = repoId') as ->.
      { destruct (distributions_by_repo _); unfold after, trace in Hin;
          elem_cases Hin. }
      rewrite He. now splits.
  - intros repoId dist_id e Hin He. rewrite Info_run_shape in *.
    assert (repoId = get_option opts "repo_id" /\ dist_id = get_option opts "id")
      as [-> ->].
    { destruct (distribution _ _); unfold after, trace in Hin; elem_cases Hin. }
    rewrite He. now splits.
Qed.

(** C9.  Whenever [List.run] or [Info.run] returns, the status it returns
    is [os.EX_OK], which is 0. *)
Theorem run_returns_EX_OK (opts : options) :
  (forall status, result (list_run opts) = inr status -> status = EX_OK /\ status = 0)
  /\ (forall status, result (info_run opts) = inr status -> status = EX_OK /\ status = 0).
Proof.
  split; intros status.
  - destruct (truthy (get_option opts "repo_id")) eqn:Ht.
    + rewrite (List_run_direct _ _ _ _ Ht). unfold List_tail, after, result.
      destruct (distributions_by_repo _); simpl; [discriminate|].
      now intros [= <-].
    + rewrite (List_run_resolve _ _ _ _ Ht). unfold after, result.
      destruct (get_repo _ _ _ _) as [e|repo]; [discriminate|].
      destruct (repo !! "id"); [|discriminate]. unfold List_tail.
      destruct (distributions_by_repo _); simpl; [discriminate|].
      now intros [= <-].
  - rewrite Info_run_shape. unfold after, result.
    destruct (distribution _ _); simpl; [discriminate|].
    now intros [= <-].
Qed.


End Claims.

(** * Concrete runs *)

Lemma List_check_options_accepts_witness :
  let opts : options := {[ "repo_id" := "42"%string ]} in
  exists_ (new_validator opts) "repo_id" = true
  /\ List_check_options (new_validator opts) = new_validator opts
  /\ passes (List_check_options (new_validator opts)) = true.
Proof.
  intros opts. destruct (List_check_options_accepts opts) as [Hiff Hid].
  split; [reflexivity|]. split.
  - apply Hid. reflexivity.
  - apply Hiff. left. reflexivity.
Defined.

Lemma Info_requires_repo_id_and_id_witness :
  let argv := [("--repo_id", "7")]%string in
  let opts : options := {[ "repo_id" := "7"%string ]} in
  parse_args (Info_setup_parser []) argv = inr opts
  /\ has_value opts "id" = false
  /\ exists missing,
       "id"%string ∈ missing
       /\ main (Info_action sample_distribution) argv
          = (ValidationError missing, [ECheckOptions missing])
       /\ List.filter is_network (snd (main (Info_action sample_distribution) argv)) = [].
Proof.
  intros argv opts. split; [reflexivity|]. split; [reflexivity|].
  destruct (Info_requires_repo_id_and_id sample_distribution) as [_ H].
  apply (H argv opts); reflexivity.
Defined.

Lemma validation_precedes_network_witness :
  let a := List_action sample_get_repo sample_distributions_by_repo sample_repr_list in
  let argv := [("--repo", "fedora"); ("--org", "ACME")]%string in
  let opts : options :=
    {[ "repo" := "fedora"; "org" := "ACME"; "environment" := "Library" ]}%string in
  parse_args (setup_parser a []) argv = inr opts
  /\ passes (check_options a (new_validator opts)) = false
  /\ List.filter is_network (snd (main a argv)) = []
  /\ success (fst (main a argv)) = false.
Proof.
  intros a argv opts. split; [vm_compute; reflexivity|]. split; [reflexivity|].
  destruct (validation_precedes_network a argv) as [_ H].
  apply (H opts); [vm_compute; reflexivity | reflexivity].
Defined.

(** C4 as stated fails: a [repo_id] given as the empty string is supplied,
    yet [List.run] calls [get_repo] and goes on with the ID it resolved. *)
Lemma List_run_empty_repo_id_resolves :
  let argv := [("--repo_id", EmptyString)]%string in
  let opts : options := {[ "repo_id" := EmptyString; "environment" := "Library" ]}%string in
  let run := List_run sample_get_repo sample_distributions_by_repo sample_repr_list in
  parse_args (List_setup_parser []) argv = inr opts
  /\ opts !! "repo_id" = Some EmptyString
  /\ List.filter is_get_repo (trace (run opts))
     = [EGetRepo VNone VNone VNone (VStr "Library")]
  /\ List.filter is_api (trace (run opts)) = [EDistributionsByRepo (VNum 7)].
Proof. vm_compute. repeat split. Qed.

Lemma List_run_uses_repo_id_witness :
  let opts : options := {[ "repo_id" := "42"%string ]} in
  let run := List_run sample_get_repo sample_distributions_by_repo sample_repr_list in
  List.filter is_get_repo (trace (run opts)) = []
  /\ exists rest,
       trace (run opts)
       = map EAddColumn List_columns
           ++ ESetHeader "Distribution List For Repo 42"
           :: EDistributionsByRepo (VStr "42") :: rest
       /\ (rest = [] \/ exists ds, rest = [EPrintItems ds]).
Proof.
  intros opts run.
  apply (List_run_uses_repo_id sample_get_repo sample_distributions_by_repo
           sample_repr_list opts "42"); [reflexivity | discriminate].
Defined.

(** C5 as stated fails: [List.run] adds its three columns before it calls
    the API. *)
Lemma List_run_adds_columns_before_api :
  let opts : options := {[ "repo_id" := "42"%string ]} in
  let run := List_run sample_get_repo sample_distributions_by_repo sample_repr_list in
  trace (run opts)
  = [ EAddColumn (Column "id" false None);
      EAddColumn (Column "description" false None);
      EAddColumn (Column "files" true (Some VerboseStrategy));
      ESetHeader "Distribution List For Repo 42";
      EDistributionsByRepo (VStr "42");
      EPrintItems [sample_distro] ]
  /\ precedes is_api is_add_column (trace (run opts)) = false.
Proof. vm_compute. split; reflexivity. Qed.

Lemma run_order_witness :
  let opts : options := {[ "repo_id" := "7"; "id" := "ks1" ]}%string in
  let lrun := List_run sample_get_repo sample_distributions_by_repo sample_repr_list in
  let irun := Info_run sample_distribution in
  result (lrun opts) = inr 0
  /\ (0 = EX_OK
      /\ exists repoId ds,
           trace (lrun opts)
           = map EAddColumn List_columns
               ++ [ESetHeader ("Distribution List For Repo "
                                 +:+ py_str sample_repr_list repoId);
                   EDistributionsByRepo repoId; EPrintItems ds])
  /\ result (irun opts) = inr 0
  /\ (0 = EX_OK
      /\ exists data,
           trace (irun opts)
           = EDistribution (VStr "7") (VStr "ks1")
               :: map EAddColumn Info_columns
               ++ [ESetHeader "Distribution Information"; EPrintItem data]).
Proof.
  intros opts lrun irun.
  destruct (run_order sample_get_repo sample_distributions_by_repo
              sample_distribution sample_repr_list opts)
    as [(_ & _ & HL & _) (_ & _ & HI & _)].
  split; [reflexivity|]. split; [exact (HL 0 eq_refl)|].
  split; [reflexivity|]. exact (HI 0 eq_refl).
Defined.

Lemma List_run_resolves_in_Library_witness :
  let argv := [("--repo", "fedora"); ("--org", "ACME"); ("--product", "OS")]%string in
  let opts : options :=
    {[ "repo" := "fedora"; "org" := "ACME"; "product" := "OS";
       "environment" := "Library" ]}%string in
  let run := List_run sample_get_repo sample_distributions_by_repo sample_repr_list in
  let call := EGetRepo (VStr "ACME") (VStr "OS") (VStr "fedora") (VStr "Library") in
  parse_args (List_setup_parser []) argv = inr opts
  /\ List.filter is_get_repo (trace (run opts)) = [call]
  /\ exists rest,
       trace (run opts)
       = map EAddColumn List_columns
           ++ call :: ESetHeader "Distribution List For Repo 7"
           :: EDistributionsByRepo (VNum 7) :: rest.
Proof.
  intros argv opts run call.
  assert (Hp : parse_args (List_setup_parser []) argv = inr opts)
    by (vm_compute; reflexivity).
  split; [exact Hp|].
  destruct (List_run_resolves_in_Library sample_get_repo sample_distributions_by_repo
              sample_repr_list argv opts "fedora" "ACME" "OS" Hp) as [Hcall Hid].
  - intros H. elem_cases H.
  - intros H. elem_cases H.
  - reflexivity.
  - reflexivity.
  - reflexivity.
  - split; [exact Hcall|]. apply (Hid sample_repo (VNum 7)); reflexivity.
Defined.

Lemma printer_configuration_witness :
  let opts : options :=
    {[ "repo" := "fedora"; "org" := "ACME"; "product" := "OS";
       "environment" := "Library"; "repo_id" := "7"; "id" := "ks1" ]}%string in
  let lrun := List_run sample_get_repo sample_distributions_by_repo sample_repr_list in
  let irun := Info_run sample_distribution in
  result (lrun opts) = inr 0
  /\ (exists repoId,
        List.filter is_configure (trace (lrun opts))
        = map EAddColumn List_columns
            ++ [ESetHeader ("Distribution List For Repo " +:+ py_str sample_repr_list repoId)]
        /\ List.filter is_api (trace (lrun opts)) = [EDistributionsByRepo repoId]
        /\ repoId = VStr "7")
  /\ result (irun opts) = inr 0
  /\ List.filter is_configure (trace (irun opts))
     = map EAddColumn Info_columns ++ [ESetHeader "Distribution Information"].
Proof.
  intros opts lrun irun.
  destruct (printer_configuration sample_get_repo sample_distributions_by_repo
              sample_distribution sample_repr_list opts) as [HL HI].
  split; [reflexivity|]. split.
  - destruct (HL 0 eq_refl) as (repoId & Hcfg & Hapi & Hid).
    exists repoId. split; [exact Hcfg|]. split; [exact Hapi | exact Hid].
  - split; [reflexivity|]. exact (HI 0 eq_refl).
Defined.

Lemma errors_propagate_witness :
  let opts : options :=
    {[ "repo" := "fedora"; "org" := "ACME"; "product" := "OS";
       "environment" := "Library" ]}%string in
  let run := List_run failing_get_repo sample_distributions_by_repo sample_repr_list in
  let call := EGetRepo (VStr "ACME") (VStr "OS") (VStr "fedora") (VStr "Library") in
  call ∈ trace (run opts)
  /\ result (run opts) = inl (RemoteError "repo not found")
  /\ List.filter is_print (trace (run opts)) = []
  /\ List.filter is_network (trace (run opts)) = [call].
Proof.
  intros opts run call.
  assert (Hin : call ∈ trace (run opts)).
  { do 3 apply list_elem_of_further. apply list_elem_of_here. }
  split; [exact Hin|].
  destruct (errors_propagate failing_get_repo sample_distributions_by_repo
              sample_distribution sample_repr_list opts) as [H _].
  apply (H _ _ _ _ (RemoteError "repo not found") Hin). reflexivity.
Defined.

Lemma run_returns_EX_OK_witness :
  let opts : options := {[ "repo_id" := "7"; "id" := "ks1" ]}%string in
  result (List_run sample_get_repo sample_distributions_by_repo sample_repr_list opts)
    = inr 0
  /\ result (Info_run sample_distribution opts) = inr 0
  /\ 0 = EX_OK.
Proof.
  intros opts.
  destruct (run_returns_EX_OK sample_get_repo sample_distributions_by_repo
              sample_distribution sample_repr_list opts) as [HL HI].
  split; [reflexivity|]. split; [reflexivity|].
  exact (proj1 (HL 0 eq_refl)).
Defined.



(** [list --repo_id 7]: no resolution, header for repo 7, one API call, the
    records printed, exit status 0. *)
Example list_repo_id_7 :
  main (List_action sample_get_repo sample_distributions_by_repo sample_repr_list)
       [("--repo_id", "7")]%string
  = (Exit 0,
     [ ECheckOptions [];
       EAddColumn (Column "id" false None);
       EAddColumn (Column "description" false None);
       EAddColumn (Column "files" true (Some VerboseStrategy));
       ESetHeader "Distribution List For Repo 7";
       EDistributionsByRepo (VStr "7");
       EPrintItems [sample_distro] ]).
Proof. vm_compute. reflexivity. Qed.

(** [info --repo_id 7] without [--id]: a validation error, nothing called. *)
Example info_without_id :
  main (Info_action sample_distribution) [("--repo_id", "7")]%string
  = (ValidationError ["id"%string], [ECheckOptions ["id"%string]]).
Proof. vm_compute. reflexivity. Qed.

(** * Further properties of [List.run] and [Info.run] *)

Section Runs.

Variable get_repo : value -> value -> value -> value -> exn + record.
Variable distributions_by_repo : value -> exn + list record.
Variable distribution : value -> value -> exn + record.
Variable repr_list : list string -> string.

Local Abbreviation list_run := (List_run get_repo distributions_by_repo repr_list).
Local Abbreviation info_run := (Info_run distribution).

(** Case analysis on every path through [List.run]: the truthiness of
    [repo_id], the outcome of the resolution, the presence of ["id"], the
    outcome of the API call. *)
Ltac list_run_paths opts :=
  let Ht := fresh "Ht" in
  destruct (truthy (get_option opts "repo_id")) eqn:Ht;
  [ rewrite (List_run_direct get_repo distributions_by_repo repr_list opts Ht) in *
  | rewrite (List_run_resolve get_repo distributions_by_repo repr_list opts Ht) in *;
    destruct (get_repo (get_option opts "org") (get_option opts "product")
                (get_option opts "repo") (get_option opts "environment"))
      as [?e|?repo] eqn:?Hrepo;
    [ | destruct (_ !! "id") as [?repoId|] eqn:?Hid ] ];
  unfold List_tail in *;
  try destruct (distributions_by_repo _) as [?e|?ds] eqn:?Hds;
  unfold after, raise, trace, result in *; cbn [fst snd app map List_columns] in *.

Ltac info_run_paths opts :=
  rewrite (Info_run_shape distribution opts) in *;
  destruct (distribution (get_option opts "repo_id") (get_option opts "id"))
    as [?e|?data] eqn:?Hdist;
  unfold after, raise, trace, result in *;
  cbn [fst snd app map Info_columns mret M_ret] in *.

(** X1.  [Info.run] makes exactly one network call whatever the options
    are: [distribution(repo_id, id)] with the two option values as it read
    them ([None] for one that was not given; [run] checks nothing itself).
    That call is the first thing it does, and it never resolves a repo. *)
Theorem Info_run_one_network_call (opts : options) :
  List.filter is_network (trace (info_run opts))
  = [EDistribution (get_option opts "repo_id") (get_option opts "id")]
  /\ head (trace (info_run opts))
     = Some (EDistribution (get_option opts "repo_id") (get_option opts "id")).
Proof. info_run_paths opts; split; reflexivity. Qed.

(** X2.  When the resolved repo record has no ["id"] key, [List.run] raises
    [KeyError('id')]: the three columns were added and [get_repo] was
    called, but no header was set and the distribution API was not called. *)
Theorem List_run_repo_without_id (opts : options) (repo : record) :
  truthy (get_option opts "repo_id") = false ->
  get_repo (get_option opts "org") (get_option opts "product")
           (get_option opts "repo") (get_option opts "environment") = inr repo ->
  repo !! "id" = None ->
  list_run opts
  = (inl (KeyError "id"),
     map EAddColumn List_columns
       ++ [EGetRepo (get_option opts "org") (get_option opts "product")
             (get_option opts "repo") (get_option opts "environment")]).
Proof.
  intros Ht Hrepo Hid. rewrite (List_run_resolve _ _ _ _ Ht), Hrepo, Hid.
  reflexivity.
Qed.

(** X3.  The only errors that come out of [List.run] are the one [get_repo]
    raised, the one [distributions_by_repo] raised, and [KeyError('id')] for
    a resolved record without ["id"]; building the header never fails.  The
    only error that comes out of [Info.run] is the one [distribution]
    raised. *)
Theorem run_error_origin (opts : options) :
  (forall e, result (list_run opts) = inl e ->
     (truthy (get_option opts "repo_id") = false
      /\ get_repo (get_option opts "org") (get_option opts "product")
                  (get_option opts "repo") (get_option opts "environment") = inl e)
     \/ (truthy (get_option opts "repo_id") = false
         /\ e = KeyError "id"
         /\ exists repo,
              get_repo (get_option opts "org") (get_option opts "product")
                       (get_option opts "repo") (get_option opts "environment")
              = inr repo
              /\ repo !! "id" = None)
     \/ (exists repoId,
           last (trace (list_run opts)) = Some (EDistributionsByRepo repoId)
           /\ distributions_by_repo repoId = inl e))
  /\ (forall e, result (info_run opts) = inl e ->
        distribution (get_option opts "repo_id") (get_option opts "id") = inl e).
Proof.
  split; intros err Herr.
  - list_run_paths opts; try discriminate Herr; injection Herr as <-.
    + right. right. eauto.
    + left. auto.
    + right. right. eauto.
    + right. left. eauto.
  - info_run_paths opts; [now injection Herr as <- | discriminate Herr].
Qed.

(** X4.  A non-empty [repo_id] is all [List.run] looks at: [--repo],
    [--org], [--product] and [--environment] are read and then ignored, and
    the resolution collaborator plays no part, whatever it would do. *)
Theorem List_run_repo_id_wins
    (get_repo' : value -> value -> value -> value -> exn + record)
    (opts opts' : options) :
  truthy (get_option opts "repo_id") = true ->
  get_option opts' "repo_id" = get_option opts "repo_id" ->
  List_run get_repo' distributions_by_repo repr_list opts' = list_run opts.
Proof.
  intros Ht Heq.
  rewrite (List_run_direct get_repo distributions_by_repo repr_list opts Ht).
  rewrite <- Heq in Ht |- *.
  apply (List_run_direct get_repo' distributions_by_repo repr_list opts' Ht).
Qed.

(** X5.  [List.run] makes no difference between a [repo_id] that was not
    given and one given as the empty string: with either, the run is fixed
    by [org], [product], [repo] and [environment] alone. *)
Theorem List_run_falsy_alike (opts opts' : options) :
  truthy (get_option opts "repo_id") = false ->
  truthy (get_option opts' "repo_id") = false ->
  get_option opts' "org" = get_option opts "org" ->
  get_option opts' "product" = get_option opts "product" ->
  get_option opts' "repo" = get_option opts "repo" ->
  get_option opts' "environment" = get_option opts "environment" ->
  list_run opts' = list_run opts.
Proof.
  intros Ht Ht' Ho Hp Hr He.
  rewrite (List_run_resolve _ _ _ opts Ht), (List_run_resolve _ _ _ opts' Ht').
  now rewrite Ho, Hp, Hr, He.
Qed.

(** X6.  What the API returns goes to the printer as it is, once, and the
    run then returns [EX_OK]: [List.run] prints the very list
    [distributions_by_repo] returned for the ID it asked about, be it
    empty, and [Info.run] prints the very record [distribution] returned. *)
Theorem api_result_is_printed (opts : options) :
  (forall repoId ds,
      EDistributionsByRepo repoId ∈ trace (list_run opts) ->
      distributions_by_repo repoId = inr ds ->
      List.filter is_print (trace (list_run opts)) = [EPrintItems ds]
      /\ result (list_run opts) = inr EX_OK)
  /\ (forall data,
        distribution (get_option opts "repo_id") (get_option opts "id") = inr data ->
        List.filter is_print (trace (info_run opts)) = [EPrintItem data]
        /\ result (info_run opts) = inr EX_OK).
Proof.
  split.
  - intros repoId ds Hin Hret.
    destruct (truthy (get_option opts "repo_id")) eqn:Ht.
    + rewrite (List_run_direct _ _ _ _ Ht) in *. unfold List_tail in *.
      assert (repoId = get_option opts "repo_id") as ->.
      { destruct (distributions_by_repo _); unfold after, trace in Hin;
          elem_cases Hin. }
      rewrite Hret. split; reflexivity.
    + rewrite (List_run_resolve _ _ _ _ Ht) in *.
      destruct (get_repo _ _ _ _) as [e|repo].
      { unfold after, trace in Hin; elem_cases Hin. }
      destruct (repo !! "id") as [repoId'|].
      2:{ unfold after, trace in Hin; elem_cases Hin. }
      unfold List_tail in *.
      assert (repoId = repoId') as ->.
      { destruct (distributions_by_repo _); unfold after, trace in Hin;
          elem_cases Hin. }
      rewrite Hret. split; reflexivity.
  - intros data Hret. info_run_paths opts; [discriminate|].
    injection Hret as ->. split; reflexivity.
Qed.

(** X7.  A run returns exactly when it printed: [List.run] returns a
    status if and only if its trace holds one [print_items] call, and
    [Info.run] if and only if its trace holds one [print_item] call; no run
    prints twice. *)
Theorem returns_iff_printed (opts : options) :
  ((exists status, result (list_run opts) = inr status) <->
   (exists ds, List.filter is_print (trace (list_run opts)) = [EPrintItems ds]))
  /\ ((exists status, result (info_run opts) = inr status) <->
      (exists data, List.filter is_print (trace (info_run opts)) = [EPrintItem data]))
  /\ (length (List.filter is_print (trace (list_run opts))) <= 1)%nat
  /\ (length (List.filter is_print (trace (info_run opts))) <= 1)%nat.
Proof.
  splits.
  - list_run_paths opts; cbn [List.filter is_print];
      (split; [intros [status H] | intros [ds' H]]); try discriminate H; eauto.
  - info_run_paths opts; cbn [List.filter is_print];
      (split; [intros [status H] | intros [d H]]); try discriminate H; eauto.
  - list_run_paths opts; cbn [List.filter is_print length]; lia.
  - info_run_paths opts; cbn [List.filter is_print length]; lia.
Qed.

(** X8.  The network calls of [List.run] are: the [get_repo] call, present
    exactly when [repo_id] is falsy, followed by at most one
    [distributions_by_repo] call.  It never calls [distribution], and
    [Info.run] never calls [get_repo] or [distributions_by_repo]. *)
Theorem List_run_network_calls (opts : options) :
  List.filter is_network (trace (list_run opts))
  = (if truthy (get_option opts "repo_id") then []
     else [EGetRepo (get_option opts "org") (get_option opts "product")
             (get_option opts "repo") (get_option opts "environment")])
    ++ List.filter is_api (trace (list_run opts))
  /\ (length (List.filter is_api (trace (list_run opts))) <= 1)%nat
  /\ (forall repoId dist_id, EDistribution repoId dist_id ∉ trace (list_run opts))
  /\ (forall e, e ∈ trace (info_run opts) ->
        is_get_repo e = false /\ forall repoId, e <> EDistributionsByRepo repoId).
Proof.
  splits.
  - list_run_paths opts; reflexivity.
  - list_run_paths opts; cbn [List.filter is_api length]; lia.
  - intros repoId dist_id Hin. list_run_paths opts; elem_cases Hin.
  - intros e Hin.
    info_run_paths opts;
      repeat (apply elem_of_cons in Hin as [->|Hin]; [split; [reflexivity | discriminate]|]);
      now apply elem_of_nil in Hin.
Qed.

(** X9.  What a failed run leaves on the printer.  [Info.run] asks the API
    first, so when it raises the printer was not touched.  [List.run]
    declares its columns first, so when it raises, the printer already holds
    the three columns of the list view. *)
Theorem printer_after_failure (opts : options) :
  (forall e, result (list_run opts) = inl e ->
     List.filter is_add_column (trace (list_run opts)) = map EAddColumn List_columns)
  /\ (forall e, result (info_run opts) = inl e ->
        List.filter is_configure (trace (info_run opts)) = []).
Proof.
  split; intros err Herr.
  - list_run_paths opts; try discriminate Herr; reflexivity.
  - info_run_paths opts; [reflexivity | discriminate Herr].
Qed.

(** X10.  The header of the list view names the repository that is queried:
    in any run of [List.run], returning or not, a [distributions_by_repo]
    call for an ID comes with exactly one header, the one built from that
    ID; and when the API was not reached no header was set. *)
Theorem header_names_queried_repo (opts : options) :
  (forall repoId,
      EDistributionsByRepo repoId ∈ trace (list_run opts) ->
      List.filter is_set_header (trace (list_run opts))
      = [ESetHeader ("Distribution List For Repo " +:+ py_str repr_list repoId)])
  /\ (List.filter is_api (trace (list_run opts)) = [] ->
      List.filter is_set_header (trace (list_run opts)) = []).
Proof.
  split.
  - intros repoId Hin.
    destruct (truthy (get_option opts "repo_id")) eqn:Ht.
    + rewrite (List_run_direct _ _ _ _ Ht) in *. unfold List_tail in *.
      assert (repoId = get_option opts "repo_id") as ->.
      { destruct (distributions_by_repo _); unfold after, trace in Hin;
          elem_cases Hin. }
      now destruct (distributions_by_repo _).
    + rewrite (List_run_resolve _ _ _ _ Ht) in *.
      destruct (get_repo _ _ _ _) as [e|repo].
      { unfold after, trace in Hin; elem_cases Hin. }
      destruct (repo !! "id") as [repoId'|].
      2:{ unfold after, trace in Hin; elem_cases Hin. }
      unfold List_tail in *.
      assert (repoId = repoId') as ->.
      { destruct (distributions_by_repo _); unfold after, trace in Hin;
          elem_cases Hin. }
      now destruct (distributions_by_repo _).
  - intros Hapi. list_run_paths opts; try discriminate Hapi; reflexivity.
Qed.

(** X11.  Validation and run fit together when [repo_id] is not given: if
    [List.check_options] accepts options without [repo_id], then [List.run]
    resolves with the three names as non-empty strings, none of them
    [None]. *)
Theorem validated_resolution_has_names (opts : options) :
  passes (List_check_options (new_validator opts)) = true ->
  opts !! "repo_id" = None ->
  exists r o p : string,
    r <> EmptyString /\ o <> EmptyString /\ p <> EmptyString
    /\ List.filter is_get_repo (trace (list_run opts))
       = [EGetRepo (VStr o) (VStr p) (VStr r) (get_option opts "environment")].
Proof.
  intros Hpass Hid.
  unfold List_check_options, exists_, has_value, new_validator in Hpass.
  cbn [v_opts] in Hpass. rewrite Hid in Hpass. cbn [negb] in Hpass.
  apply (require_passes _ opts) in Hpass. cbn [forallb] in Hpass.
  rewrite !andb_true_iff in Hpass. destruct Hpass as (Hr & Ho & Hp & _).
  unfold has_value in Hr, Ho, Hp.
  destruct (opts !! "repo") as [r|] eqn:Er; [|discriminate].
  destruct (opts !! "org") as [o|] eqn:Eo; [|discriminate].
  destruct (opts !! "product") as [p|] eqn:Ep; [|discriminate].
  exists r, o, p.
  splits.
  - intros ->. discriminate Hr.
  - intros ->. discriminate Ho.
  - intros ->. discriminate Hp.
  - assert (Ht : truthy (get_option opts "repo_id") = false).
    { unfold get_option. now rewrite Hid. }
    rewrite (List_run_resolve _ _ _ _ Ht).
    replace (get_option opts "org") with (VStr o) by (unfold get_option; now rewrite Eo).
    replace (get_option opts "product") with (VStr p)
      by (unfold get_option; now rewrite Ep).
    replace (get_option opts "repo") with (VStr r) by (unfold get_option; now rewrite Er).
    destruct (get_repo _ _ _ _) as [e|repo]; [reflexivity|].
    destruct (repo !! "id"); [|reflexivity].
    unfold List_tail. now destruct (distributions_by_repo _).
Qed.

(** X12.  Validation and run fit together for [info]: if
    [Info.check_options] accepts the options, the one call [Info.run] makes
    is [distribution] on two non-empty strings. *)
Theorem validated_info_has_ids (opts : options) :
  passes (Info_check_options (new_validator opts)) = true ->
  exists repoId dist_id : string,
    repoId <> EmptyString /\ dist_id <> EmptyString
    /\ List.filter is_network (trace (info_run opts))
       = [EDistribution (VStr repoId) (VStr dist_id)].
Proof.
  intros Hpass. unfold Info_check_options in Hpass.
  apply (require_passes _ opts) in Hpass. cbn [forallb] in Hpass.
  rewrite !andb_true_iff in Hpass. destruct Hpass as (Hr & Hd & _).
  unfold has_value in Hr, Hd.
  destruct (opts !! "repo_id") as [r|] eqn:Er; [|discriminate].
  destruct (opts !! "id") as [d|] eqn:Ed; [|discriminate].
  exists r, d. splits.
  - intros ->. discriminate Hr.
  - intros ->. discriminate Hd.
  - rewrite Info_run_shape.
    replace (get_option opts "repo_id") with (VStr r)
      by (unfold get_option; now rewrite Er).
    replace (get_option opts "id") with (VStr d) by (unfold get_option; now rewrite Ed).
    now destruct (distribution _ _).
Qed.

End Runs.

(** * Concrete runs for the further properties *)

Lemma List_run_repo_without_id_witness :
  let opts : options := {[ "repo" := "fedora"; "org" := "ACME"; "product" := "OS" ]}%string in
  List_run idless_get_repo sample_distributions_by_repo sample_repr_list opts
  = (inl (KeyError "id"),
     map EAddColumn List_columns
       ++ [EGetRepo (VStr "ACME") (VStr "OS") (VStr "fedora") VNone]).
Proof.
  intros opts.
  apply (List_run_repo_without_id idless_get_repo sample_distributions_by_repo
           sample_repr_list opts {[ "name" := VStr "fedora" ]}); reflexivity.
Defined.

Lemma run_error_origin_witness :
  let opts : options := {[ "repo_id" := "7"; "id" := "ks1" ]}%string in
  result (Info_run failing_distribution opts) = inl (RemoteError "distribution not found")
  /\ failing_distribution (VStr "7") (VStr "ks1")
     = inl (RemoteError "distribution not found").
Proof.
  intros opts. split; [reflexivity|].
  destruct (run_error_origin sample_get_repo sample_distributions_by_repo
              failing_distribution sample_repr_list opts) as [_ H].
  apply (H (RemoteError "distribution not found")). reflexivity.
Defined.

Lemma List_run_repo_id_wins_witness :
  let opts : options := {[ "repo_id" := "7"%string ]} in
  let opts' : options :=
    {[ "repo_id" := "7"; "repo" := "fedora"; "org" := "ACME"; "product" := "OS";
       "environment" := "Dev" ]}%string in
  List_run failing_get_repo sample_distributions_by_repo sample_repr_list opts'
  = List_run sample_get_repo sample_distributions_by_repo sample_repr_list opts.
Proof.
  intros opts opts'.
  apply (List_run_repo_id_wins sample_get_repo sample_distributions_by_repo
           sample_repr_list failing_get_repo opts opts'); reflexivity.
Defined.

Lemma List_run_falsy_alike_witness :
  let opts : options := {[ "repo" := "fedora"; "org" := "ACME"; "product" := "OS" ]}%string in
  let opts' : options :=
    {[ "repo_id" := EmptyString; "repo" := "fedora"; "org" := "ACME";
       "product" := "OS" ]}%string in
  List_run sample_get_repo sample_distributions_by_repo sample_repr_list opts'
  = List_run sample_get_repo sample_distributions_by_repo sample_repr_list opts.
Proof.
  intros opts opts'.
  apply (List_run_falsy_alike sample_get_repo sample_distributions_by_repo
           sample_repr_list opts opts'); reflexivity.
Defined.

Lemma api_result_is_printed_witness :
  let opts : options := {[ "repo_id" := "7"%string ]} in
  let run := List_run sample_get_repo empty_distributions_by_repo sample_repr_list in
  EDistributionsByRepo (VStr "7") ∈ trace (run opts)
  /\ empty_distributions_by_repo (VStr "7") = inr []
  /\ List.filter is_print (trace (run opts)) = [EPrintItems []]
  /\ result (run opts) = inr EX_OK.
Proof.
  intros opts run.
  assert (Hin : EDistributionsByRepo (VStr "7") ∈ trace (run opts)).
  { do 4 apply list_elem_of_further. apply list_elem_of_here. }
  split; [exact Hin|]. split; [reflexivity|].
  destruct (api_result_is_printed sample_get_repo empty_distributions_by_repo
              sample_distribution sample_repr_list opts) as [H _].
  apply (H (VStr "7") [] Hin). reflexivity.
Defined.

Lemma returns_iff_printed_witness :
  let opts : options := {[ "repo_id" := "7"%string ]} in
  let run := List_run sample_get_repo sample_distributions_by_repo sample_repr_list in
  result (run opts) = inr 0
  /\ exists ds, List.filter is_print (trace (run opts)) = [EPrintItems ds].
Proof.
  intros opts run. split; [reflexivity|].
  destruct (returns_iff_printed sample_get_repo sample_distributions_by_repo
              sample_distribution sample_repr_list opts) as [[H _] _].
  apply H. exists 0. reflexivity.
Defined.

Lemma List_run_network_calls_witness :
  let opts : options := {[ "repo_id" := "7"; "id" := "ks1" ]}%string in
  let irun := Info_run sample_distribution in
  EPrintItem sample_distro ∈ trace (irun opts)
  /\ is_get_repo (EPrintItem sample_distro) = false
  /\ forall repoId, EPrintItem sample_distro <> EDistributionsByRepo repoId.
Proof.
  intros opts irun.
  assert (Hin : EPrintItem sample_distro ∈ trace (irun opts)).
  { do 8 apply list_elem_of_further. apply list_elem_of_here. }
  split; [exact Hin|].
  destruct (List_run_network_calls sample_get_repo sample_distributions_by_repo
              sample_distribution sample_repr_list opts) as (_ & _ & _ & H).
  exact (H _ Hin).
Defined.

Lemma printer_after_failure_witness :
  let opts : options := {[ "repo_id" := "7"; "id" := "ks1" ]}%string in
  let lrun := List_run sample_get_repo failing_distributions_by_repo sample_repr_list in
  let irun := Info_run failing_distribution in
  result (lrun opts) = inl (RemoteError "server error")
  /\ List.filter is_add_column (trace (lrun opts)) = map EAddColumn List_columns
  /\ result (irun opts) = inl (RemoteError "distribution not found")
  /\ List.filter is_configure (trace (irun opts)) = [].
Proof.
  intros opts lrun irun.
  destruct (printer_after_failure sample_get_repo failing_distributions_by_repo
              failing_distribution sample_repr_list opts) as [HL HI].
  split; [reflexivity|]. split; [exact (HL _ eq_refl)|].
  split; [reflexivity|]. exact (HI _ eq_refl).
Defined.

Lemma header_names_queried_repo_witness :
  let opts : options := {[ "repo" := "fedora"; "org" := "ACME"; "product" := "OS" ]}%string in
  let run := List_run sample_get_repo failing_distributions_by_repo sample_repr_list in
  EDistributionsByRepo (VNum 7) ∈ trace (run opts)
  /\ List.filter is_set_header (trace (run opts))
     = [ESetHeader "Distribution List For Repo 7"].
Proof.
  intros opts run.
  assert (Hin : EDistributionsByRepo (VNum 7) ∈ trace (run opts)).
  { do 5 apply list_elem_of_further. apply list_elem_of_here. }
  split; [exact Hin|].
  destruct (header_names_queried_repo sample_get_repo failing_distributions_by_repo
              sample_repr_list opts) as [H _].
  exact (H (VNum 7) Hin).
Defined.

Lemma validated_resolution_has_names_witness :
  let opts : options :=
    {[ "repo" := "fedora"; "org" := "ACME"; "product" := "OS";
       "environment" := "Library" ]}%string in
  passes (List_check_options (new_validator opts)) = true
  /\ opts !! "repo_id" = None
  /\ exists r o p : string,
       r <> EmptyString /\ o <> EmptyString /\ p <> EmptyString
       /\ List.filter is_get_repo
            (trace (List_run sample_get_repo sample_distributions_by_repo
                      sample_repr_list opts))
          = [EGetRepo (VStr o) (VStr p) (VStr r) (get_option opts "environment")].
Proof.
  intros opts. split; [reflexivity|]. split; [reflexivity|].
  apply (validated_resolution_has_names sample_get_repo sample_distributions_by_repo
           sample_repr_list opts); reflexivity.
Defined.

Lemma validated_info_has_ids_witness :
  let opts : options := {[ "repo_id" := "7"; "id" := "ks1" ]}%string in
  passes (Info_check_options (new_validator opts)) = true
  /\ exists repoId dist_id : string,
       repoId <> EmptyString /\ dist_id <> EmptyString
       /\ List.filter is_network (trace (Info_run sample_distribution opts))
          = [EDistribution (VStr repoId) (VStr dist_id)].
Proof.
  intros opts. split; [reflexivity|].
  apply (validated_info_has_ids sample_distribution opts). reflexivity.
Defined.
